(** * pg_misc_functions: a shallow embedding of pg_misc_functions.c

    The module exports six SQL-callable functions: two crash injectors
    ([pg_cause_panic], [pg_cause_fatal]), a signal sender
    ([pg_signal_backend_with_pid], built on the static helper
    [SignalBackend]) and three timeline readers.  Everything these
    functions touch outside their own bodies (the superuser test, the
    postmaster pid, the two process tables, kill(2), errno, ereport and
    the WAL position readers) belongs to the PostgreSQL server or the
    operating system; it is gathered in the record [World] and in a small
    monad that records, in order, every call that leaves the function. *)

From Stdlib Require Import ZArith List String Ascii Bool Lia DecimalString.
Import ListNotations.
Open Scope string_scope.
Open Scope Z_scope.

(** ** C integers *)

Module CInt.

Definition INT_MIN : Z := -2147483648.
Definition INT_MAX : Z := 2147483647.
Definition UINT32_MAX : Z := 4294967295.

Definition int_range (z : Z) : Prop := INT_MIN <= z <= INT_MAX.
Definition uint32_range (z : Z) : Prop := 0 <= z <= UINT32_MAX.

(** Reduction of a mathematical integer to a 32-bit two's complement
    [int] (the server is built with wrapping signed arithmetic). *)
Definition wrap_int (z : Z) : Z := (z + 2147483648) mod 4294967296 - 2147483648.

(** Unary minus on [int], as in [kill(-pid, signum)]. *)
Definition neg_int (z : Z) : Z := wrap_int (- z).

End CInt.
Import CInt.

(** ** The fragment of printf used by errmsg *)

Module Printf.

(** [%d] of a C [int]. *)
Definition dec (z : Z) : string := NilZero.string_of_int (Z.to_int z).

(** Expansion of a format string: [%d] consumes the next argument,
    [%m] is replaced by the text of the saved errno, every other
    character is copied. *)
Fixpoint format (fmt : string) (args : list Z) (m : string) : string :=
  match fmt with
  | EmptyString => EmptyString
  | String c rest =>
      if Ascii.eqb c "%" then
        match rest with
        | EmptyString => String c EmptyString
        | String d rest' =>
            if Ascii.eqb d "d" then
              match args with
              | a :: args' => dec a ++ format rest' args' m
              | [] => format rest' [] m
              end
            else if Ascii.eqb d "m" then m ++ format rest' args m
            else String c (format rest args m)
        end
      else String c (format rest args m)
  end.

End Printf.
Import Printf.

(** ** Error reports (elog.h) *)

Inductive elevel : Type :=
| DEBUG5 | DEBUG4 | DEBUG3 | DEBUG2 | DEBUG1
| LOG | LOG_SERVER_ONLY | INFO | NOTICE
| WARNING | WARNING_CLIENT_ONLY
| ERROR | FATAL | PANIC.

(** The numeric value elog.h gives each level; a larger value is a more
    severe report. *)
Definition elevel_value (l : elevel) : Z :=
  match l with
  | DEBUG5 => 10 | DEBUG4 => 11 | DEBUG3 => 12 | DEBUG2 => 13 | DEBUG1 => 14
  | LOG => 15 | LOG_SERVER_ONLY => 16 | INFO => 17 | NOTICE => 18
  | WARNING => 19 | WARNING_CLIENT_ONLY => 20
  | ERROR => 21 | FATAL => 22 | PANIC => 23
  end.

Inductive sqlstate : Type :=
| ERRCODE_INSUFFICIENT_PRIVILEGE
| ERRCODE_INTERNAL_ERROR.

Record ErrorData : Type := mkErrorData {
  ed_elevel : elevel;
  ed_sqlerrcode : option sqlstate;
  ed_message : string;
  ed_detail : option string
}.

(** How control leaves a function that does not return to its caller:
    ereport(ERROR) unwinds to the statement's error handler and aborts the
    transaction, ereport(FATAL) ends the calling backend's session,
    ereport(PANIC) aborts the process and thereby forces a restart of
    every server process. *)
Inductive nonlocal_exit : Type :=
| AbortStatement
| SessionExit
| ClusterPanic.

Inductive outcome (A : Type) : Type :=
| Returned (a : A)
| Raised (x : nonlocal_exit) (e : ErrorData).
Arguments Returned {A} a.
Arguments Raised {A} x e.

(** ** The environment of a call *)

(** A process-table entry; the module only tests it against NULL. *)
Inductive PGPROC : Type := mkPGPROC (pgprocno : nat).

Record World : Type := mkWorld {
  w_superuser : bool;
  w_PostmasterPid : Z;
  w_BackendPidGetProc : Z -> option PGPROC;
  w_AuxiliaryPidGetProc : Z -> option PGPROC;
  (** whether the build defines HAVE_SETSID *)
  w_HAVE_SETSID : bool;
  (** kill(2): the value it returns and the errno it leaves on failure *)
  w_kill : Z -> Z -> Z;
  w_kill_errno : Z -> Z -> Z;
  w_strerror : Z -> string;
  (** the timeline each WAL position reader stores through its pointer *)
  w_GetFlushRecPtr_tli : Z;
  w_GetXLogReplayRecPtr_tli : Z;
  w_GetWalRcvFlushRecPtr_tli : Z
}.

(** Calls that leave the module, in the order they are made. *)
Inductive event : Type :=
| EvBackendPidGetProc (pid : Z)
| EvAuxiliaryPidGetProc (pid : Z)
| EvKill (target signum : Z)
| EvReport (e : ErrorData).

(** ** The monad: errno threaded through, events written, exits raised *)

Record run (A : Type) : Type := mkRun {
  result : outcome A;
  errno_after : Z;
  trace : list event
}.
Arguments mkRun {A} _ _ _.
Arguments result {A} _.
Arguments errno_after {A} _.
Arguments trace {A} _.

Definition M (A : Type) : Type := Z -> run A.

Definition ret {A} (a : A) : M A := fun errno => mkRun (Returned a) errno [].

Definition bind {A B} (m : M A) (k : A -> M B) : M B :=
  fun errno =>
    let r := m errno in
    match result r with
    | Returned a =>
        let r' := k a (errno_after r) in
        mkRun (result r') (errno_after r') (trace r ++ trace r')
    | Raised x e => mkRun (Raised x e) (errno_after r) (trace r)
    end.

Declare Scope pg_scope.
Delimit Scope pg_scope with pg.
Notation "x <- m ;; k" := (bind m (fun x => k))
  (at level 61, m at next level, right associativity) : pg_scope.
Notation "m ;; k" := (bind m (fun _ => k))
  (at level 61, right associativity) : pg_scope.
Open Scope pg_scope.

Section Server.

Variable w : World.

Definition superuser : M bool := ret (w_superuser w).

Definition BackendPidGetProc (pid : Z) : M (option PGPROC) :=
  fun errno => mkRun (Returned (w_BackendPidGetProc w pid)) errno
                     [EvBackendPidGetProc pid].

Definition AuxiliaryPidGetProc (pid : Z) : M (option PGPROC) :=
  fun errno => mkRun (Returned (w_AuxiliaryPidGetProc w pid)) errno
                     [EvAuxiliaryPidGetProc pid].

(** kill(2) leaves errno alone when it succeeds. *)
Definition kill (target signum : Z) : M Z :=
  fun errno =>
    let r := w_kill w target signum in
    mkRun (Returned r)
          (if r =? 0 then errno else w_kill_errno w target signum)
          [EvKill target signum].

(** ereport(elevel, (errcode(..), errmsg(fmt, args), errdetail(..))).
    The message is formatted with the errno current at the call; levels
    below ERROR return to the caller, the others do not. *)
Definition ereport (lvl : elevel) (code : option sqlstate)
           (fmt : string) (args : list Z) (detail : option string) : M unit :=
  fun errno =>
    let e := mkErrorData lvl code (format fmt args (w_strerror w errno)) detail in
    mkRun (match lvl with
           | ERROR => Raised AbortStatement e
           | FATAL => Raised SessionExit e
           | PANIC => Raised ClusterPanic e
           | _ => Returned tt
           end)
          errno [EvReport e].

(** *** pg_cause_panic, pg_cause_fatal *)

Definition testing_only_detail : string :=
  "This function needs to be strictly used only for testing or development purposes not on production servers.".

Definition pg_cause_panic : M unit :=
  su <- superuser ;;
  (if negb su then
     ereport ERROR (Some ERRCODE_INSUFFICIENT_PRIVILEGE)
             "must be a superuser to execute pg_cause_panic function" []
             (Some testing_only_detail)
   else ret tt) ;;
  ereport PANIC (Some ERRCODE_INTERNAL_ERROR)
          "PANIC generated by pg_cause_panic function" [] None ;;
  ret tt.

Definition pg_cause_fatal : M unit :=
  su <- superuser ;;
  (if negb su then
     ereport ERROR (Some ERRCODE_INSUFFICIENT_PRIVILEGE)
             "must be a superuser to execute pg_cause_fatal function" []
             (Some testing_only_detail)
   else ret tt) ;;
  ereport FATAL (Some ERRCODE_INTERNAL_ERROR)
          "FATAL error generated by pg_cause_fatal function" [] None ;;
  ret tt.

(** *** SignalBackend *)

(** The argument the build passes to kill: the negated pid (the whole
    process group) under HAVE_SETSID, the pid itself otherwise. *)
Definition kill_target (pid : Z) : Z :=
  if w_HAVE_SETSID w then neg_int pid else pid.

(** The part of SignalBackend after the pid has been validated, which
    the not-a-server-process branch skips with its early return. *)
Definition SignalBackend_deliver (pid signum : Z) : M bool :=
  r <- kill (kill_target pid) signum ;;
  if negb (r =? 0) then
    ereport WARNING None
            "could not send signal %d to process %d: %m" [signum; pid] None ;;
    ret false
  else ret true.

Definition SignalBackend (pid signum : Z) : M bool :=
  if pid =? w_PostmasterPid w then
    (* do nothing for now *)
    SignalBackend_deliver pid signum
  else
    proc <- BackendPidGetProc pid ;;
    proc <- (match proc with
             | None => AuxiliaryPidGetProc pid
             | Some _ => ret proc
             end) ;;
    match proc with
    | None =>
        ereport WARNING None
                "PID %d is not a PostgreSQL server process" [pid] None ;;
        ret false
    | Some _ => SignalBackend_deliver pid signum
    end.

(** *** pg_signal_backend_with_pid

    [pid] and [signum] are the values PG_GETARG_INT32 hands over. *)
Definition pg_signal_backend_with_pid (pid signum : Z) : M bool :=
  su <- superuser ;;
  (if negb su then
     ereport ERROR (Some ERRCODE_INSUFFICIENT_PRIVILEGE)
             "must be a superuser to execute pg_signal_backend function" []
             None
   else ret tt) ;;
  SignalBackend pid signum.

(** *** Timeline readers *)

(** What a function leaves for the SQL caller: the isnull flag of the
    call frame and the returned Datum. *)
Record sql_result : Type := mkResult {
  isnull : bool;
  datum : Z
}.

Definition PG_RETURN_NULL : sql_result := mkResult true 0.
Definition PG_RETURN_UINT32 (x : Z) : sql_result := mkResult false x.

Definition pg_current_wal_tli : sql_result :=
  let tli := w_GetFlushRecPtr_tli w in
  if tli =? 0 then PG_RETURN_NULL else PG_RETURN_UINT32 tli.

Definition pg_last_wal_replay_tli : sql_result :=
  let tli := w_GetXLogReplayRecPtr_tli w in
  if tli =? 0 then PG_RETURN_NULL else PG_RETURN_UINT32 tli.

Definition pg_last_wal_receive_tli : sql_result :=
  let tli := w_GetWalRcvFlushRecPtr_tli w in
  if tli =? 0 then PG_RETURN_NULL else PG_RETURN_UINT32 tli.

End Server.


(** ** Observations on a trace *)

Definition reports (tr : list event) : list ErrorData :=
  flat_map (fun ev => match ev with EvReport e => [e] | _ => [] end) tr.

Definition kills (tr : list event) : list (Z * Z) :=
  flat_map (fun ev => match ev with EvKill t s => [(t, s)] | _ => [] end) tr.

Definition is_registry_query (ev : event) : bool :=
  match ev with
  | EvBackendPidGetProc _ | EvAuxiliaryPidGetProc _ => true
  | _ => false
  end.

Definition registry_queries (tr : list event) : list event :=
  filter is_registry_query tr.

(** A report is a hard error when its level reaches ERROR. *)
Definition is_hard_error (e : ErrorData) : bool :=
  elevel_value ERROR <=? elevel_value (ed_elevel e).

(** The pid passes SignalBackend's validation: it is the postmaster's, or
    one of the two process tables knows it. *)
Definition resolves (w : World) (pid : Z) : bool :=
  (pid =? w_PostmasterPid w)
  || (if w_BackendPidGetProc w pid is Some _ then true else false)
  || (if w_AuxiliaryPidGetProc w pid is Some _ then true else false).

(** The two warnings SignalBackend can issue, with their text spelled out. *)
Definition not_server_process_warning (pid : Z) : ErrorData :=
  mkErrorData WARNING None
    ("PID " ++ dec pid ++ " is not a PostgreSQL server process") None.

Definition could_not_send_warning (w : World) (pid signum : Z) : ErrorData :=
  mkErrorData WARNING None
    ("could not send signal " ++ dec signum ++ " to process " ++ dec pid ++ ": "
       ++ w_strerror w (w_kill_errno w (kill_target w pid) signum))
    None.

(** The InsufficientPrivilege error of an entry point, given its message
    and detail. *)
Definition insufficient_privilege (msg : string) (detail : option string) : ErrorData :=
  mkErrorData ERROR (Some ERRCODE_INSUFFICIENT_PRIVILEGE) msg detail.

(** The registry queries SignalBackend makes for [pid], in order. *)
Definition resolution_queries (w : World) (pid : Z) : list event :=
  if pid =? w_PostmasterPid w then []
  else EvBackendPidGetProc pid
       :: (if w_BackendPidGetProc w pid is Some _ then []
           else [EvAuxiliaryPidGetProc pid]).

(** What SignalBackend_deliver leaves in the trace. *)
Definition delivery_trace (w : World) (pid signum : Z) : list event :=
  EvKill (kill_target w pid) signum
  :: (if w_kill w (kill_target w pid) signum =? 0 then []
      else [EvReport (could_not_send_warning w pid signum)]).

(** What a timeline reader owes the stored value: null for the zero
    sentinel, the value itself from 1 up, never a non-null zero. *)
Definition translates_zero_sentinel (stored : Z) (r : sql_result) : Prop :=
  (stored = 0 -> isnull r = true)
  /\ (1 <= stored <= UINT32_MAX -> isnull r = false /\ datum r = stored)
  /\ ~ (isnull r = false /\ datum r = 0).

(** ** The resolver and dispatcher as the specification words them *)

Module Spec.

Inductive Resolution : Type :=
| ResolvedSupervisor
| ResolvedWorker (handle : PGPROC)
| ResolvedAuxiliary (handle : PGPROC)
| NotFound.

(** Supervisor first, without a registry query; then the worker registry;
    then the auxiliary registry; then NotFound. *)
Definition ProcessResolver (w : World) (pid : Z) : M Resolution :=
  if pid =? w_PostmasterPid w then ret ResolvedSupervisor
  else
    worker <- BackendPidGetProc w pid ;;
    match worker with
    | Some h => ret (ResolvedWorker h)
    | None =>
        aux <- AuxiliaryPidGetProc w pid ;;
        match aux with
        | Some h => ret (ResolvedAuxiliary h)
        | None => ret NotFound
        end
    end.

(** NotFound: one non-fatal diagnostic and failure.  Otherwise deliver to
    the process group (or the single process), with a non-fatal diagnostic
    and failure when delivery fails, success when it succeeds. *)
Definition SignalDispatcher (w : World) (res : Resolution) (pid signum : Z) : M bool :=
  match res with
  | NotFound =>
      fun errno => mkRun (Returned false) errno [EvReport (not_server_process_warning pid)]
  | _ =>
      fun errno =>
        if w_kill w (kill_target w pid) signum =? 0
        then mkRun (Returned true) errno [EvKill (kill_target w pid) signum]
        else mkRun (Returned false) (w_kill_errno w (kill_target w pid) signum)
                   [EvKill (kill_target w pid) signum;
                    EvReport (could_not_send_warning w pid signum)]
  end.

Definition SignalProcess (w : World) (pid signum : Z) : M bool :=
  res <- ProcessResolver w pid ;;
  SignalDispatcher w res pid signum.

End Spec.

(** ** A concrete server, used to exercise the statements below

    Postmaster 100, one backend (pid 200), one auxiliary process (pid 300),
    a stray table entry at pid -7; kill reaches only the backend's group. *)

Definition demo_world (su setsid : bool) : World :=
  mkWorld su 100
    (fun p => if p =? 200 then Some (mkPGPROC 1)
              else if p =? -7 then Some (mkPGPROC 9) else None)
    (fun p => if p =? 300 then Some (mkPGPROC 2) else None)
    setsid
    (fun t s => if (t =? -200) || (t =? 200) || (t =? 7) then 0 else -1)
    (fun _ _ => 3)
    (fun e => if e =? 3 then "No such process" else "Unknown error")
    0 1 4294967295.

(** ** Run equations *)

Arguments dec : simpl never.

(** Facts on C integers. *)

Lemma wrap_int_id z : int_range z -> wrap_int z = z.
Proof.
  unfold int_range, INT_MIN, INT_MAX, wrap_int; intros H.
  rewrite Z.mod_small; lia.
Qed.

Lemma wrap_int_range z : int_range (wrap_int z).
Proof.
  unfold int_range, INT_MIN, INT_MAX, wrap_int.
  pose proof (Z.mod_pos_bound (z + 2147483648) 4294967296 eq_refl); lia.
Qed.

Lemma neg_int_exact z : INT_MIN < z <= INT_MAX -> neg_int z = - z.
Proof.
  unfold neg_int, INT_MIN, INT_MAX; intros H.
  apply wrap_int_id; unfold int_range, INT_MIN, INT_MAX; lia.
Qed.

Lemma neg_int_min : neg_int INT_MIN = INT_MIN.
Proof. reflexivity. Qed.


Lemma append_empty_r (s : string) : (s ++ "")%string = s.
Proof. induction s as [|c s IH]; cbn; [reflexivity | now rewrite IH]. Qed.

(** The two format strings of SignalBackend, expanded. *)
Lemma format_not_server_process (pid : Z) (m : string) :
  format "PID %d is not a PostgreSQL server process" [pid] m
  = ("PID " ++ dec pid ++ " is not a PostgreSQL server process")%string.
Proof. reflexivity. Qed.

Lemma format_could_not_send (signum pid : Z) (m : string) :
  format "could not send signal %d to process %d: %m" [signum; pid] m
  = ("could not send signal " ++ dec signum ++ " to process " ++ dec pid ++ ": " ++ m)%string.
Proof. cbn. now rewrite append_empty_r. Qed.

Lemma SignalBackend_deliver_ok (w : World) (pid signum errno : Z) :
  w_kill w (kill_target w pid) signum = 0 ->
  SignalBackend_deliver w pid signum errno
  = mkRun (Returned true) errno [EvKill (kill_target w pid) signum].
Proof.
  intros Hk. unfold SignalBackend_deliver, bind, kill; cbn.
  rewrite Hk; reflexivity.
Qed.

Lemma SignalBackend_deliver_fail (w : World) (pid signum errno : Z) :
  w_kill w (kill_target w pid) signum <> 0 ->
  SignalBackend_deliver w pid signum errno
  = mkRun (Returned false) (w_kill_errno w (kill_target w pid) signum)
          [EvKill (kill_target w pid) signum;
           EvReport (could_not_send_warning w pid signum)].
Proof.
  intros Hk. apply Z.eqb_neq in Hk.
  unfold could_not_send_warning. rewrite <- format_could_not_send.
  unfold SignalBackend_deliver, bind, kill, ereport; cbn.
  rewrite Hk; reflexivity.
Qed.

Lemma SignalBackend_postmaster (w : World) (pid signum errno : Z) :
  pid = w_PostmasterPid w ->
  SignalBackend w pid signum errno = SignalBackend_deliver w pid signum errno.
Proof.
  intros ->. unfold SignalBackend. rewrite Z.eqb_refl. reflexivity.
Qed.

Lemma run_eta {A} (r : run A) : mkRun (result r) (errno_after r) (trace r) = r.
Proof. destruct r; reflexivity. Qed.

Lemma SignalBackend_backend (w : World) (pid signum errno : Z) (h : PGPROC) :
  pid <> w_PostmasterPid w ->
  w_BackendPidGetProc w pid = Some h ->
  SignalBackend w pid signum errno
  = let r := SignalBackend_deliver w pid signum errno in
    mkRun (result r) (errno_after r) (EvBackendPidGetProc pid :: trace r).
Proof.
  intros Hpm Hb. apply Z.eqb_neq in Hpm.
  unfold SignalBackend. rewrite Hpm.
  unfold bind, BackendPidGetProc; cbn. rewrite Hb; cbn.
  reflexivity.
Qed.

Lemma SignalBackend_auxiliary (w : World) (pid signum errno : Z) (h : PGPROC) :
  pid <> w_PostmasterPid w ->
  w_BackendPidGetProc w pid = None ->
  w_AuxiliaryPidGetProc w pid = Some h ->
  SignalBackend w pid signum errno
  = let r := SignalBackend_deliver w pid signum errno in
    mkRun (result r) (errno_after r)
          (EvBackendPidGetProc pid :: EvAuxiliaryPidGetProc pid :: trace r).
Proof.
  intros Hpm Hb Ha. apply Z.eqb_neq in Hpm.
  unfold SignalBackend. rewrite Hpm.
  unfold bind, BackendPidGetProc, AuxiliaryPidGetProc; cbn.
  rewrite Hb; cbn. rewrite Ha; cbn.
  reflexivity.
Qed.

Lemma SignalBackend_not_found (w : World) (pid signum errno : Z) :
  pid <> w_PostmasterPid w ->
  w_BackendPidGetProc w pid = None ->
  w_AuxiliaryPidGetProc w pid = None ->
  SignalBackend w pid signum errno
  = mkRun (Returned false) errno
          [EvBackendPidGetProc pid; EvAuxiliaryPidGetProc pid;
           EvReport (not_server_process_warning pid)].
Proof.
  intros Hpm Hb Ha. apply Z.eqb_neq in Hpm.
  unfold SignalBackend. rewrite Hpm.
  unfold bind, BackendPidGetProc, AuxiliaryPidGetProc; cbn.
  rewrite Hb; cbn. rewrite Ha; cbn.
  reflexivity.
Qed.

Lemma bind_ret_l {A B} (a : A) (k : A -> M B) (errno : Z) :
  bind (ret a) k errno = k a errno.
Proof. unfold bind, ret; cbn. apply run_eta. Qed.

Lemma SignalBackend_deliver_trace (w : World) (pid signum errno : Z) :
  trace (SignalBackend_deliver w pid signum errno) = delivery_trace w pid signum.
Proof.
  unfold delivery_trace.
  destruct (Z.eq_dec (w_kill w (kill_target w pid) signum) 0) as [Hk|Hk].
  - rewrite (SignalBackend_deliver_ok _ _ _ _ Hk), Hk. reflexivity.
  - rewrite (SignalBackend_deliver_fail _ _ _ _ Hk).
    apply Z.eqb_neq in Hk. rewrite Hk. reflexivity.
Qed.

Lemma SignalBackend_deliver_result (w : World) (pid signum errno : Z) :
  result (SignalBackend_deliver w pid signum errno)
  = Returned (w_kill w (kill_target w pid) signum =? 0).
Proof.
  destruct (Z.eq_dec (w_kill w (kill_target w pid) signum) 0) as [Hk|Hk].
  - rewrite (SignalBackend_deliver_ok _ _ _ _ Hk), Hk. reflexivity.
  - rewrite (SignalBackend_deliver_fail _ _ _ _ Hk).
    apply Z.eqb_neq in Hk. rewrite Hk. reflexivity.
Qed.

(** Case analysis on the path SignalBackend takes for [pid]: postmaster,
    backend, auxiliary process, or none of them. *)
Ltac resolution_cases w pid signum errno :=
  let Hpm := fresh "Hpm" in
  let Hb := fresh "Hb" in
  let Ha := fresh "Ha" in
  let hb := fresh "hb" in
  let ha := fresh "ha" in
  destruct (Z.eq_dec pid (w_PostmasterPid w)) as [Hpm|Hpm];
  [ rewrite (SignalBackend_postmaster w pid signum errno Hpm)
  | destruct (w_BackendPidGetProc w pid) as [hb|] eqn:Hb;
    [ rewrite (SignalBackend_backend w pid signum errno hb Hpm Hb)
    | destruct (w_AuxiliaryPidGetProc w pid) as [ha|] eqn:Ha;
      [ rewrite (SignalBackend_auxiliary w pid signum errno ha Hpm Hb Ha)
      | rewrite (SignalBackend_not_found w pid signum errno Hpm Hb Ha) ] ] ].

Lemma resolves_not_found (w : World) (pid : Z) :
  pid <> w_PostmasterPid w ->
  w_BackendPidGetProc w pid = None ->
  w_AuxiliaryPidGetProc w pid = None ->
  resolves w pid = false.
Proof.
  intros Hpm Hb Ha. apply Z.eqb_neq in Hpm.
  unfold resolves. now rewrite Hpm, Hb, Ha.
Qed.

(** The trace and the result of SignalBackend for a pid that passes
    validation: the queries made, then the delivery. *)
Lemma SignalBackend_resolved (w : World) (pid signum errno : Z) :
  resolves w pid = true ->
  trace (SignalBackend w pid signum errno)
  = (resolution_queries w pid ++ delivery_trace w pid signum)%list
  /\ result (SignalBackend w pid signum errno)
     = Returned (w_kill w (kill_target w pid) signum =? 0).
Proof.
  intros Hres. unfold resolution_queries.
  resolution_cases w pid signum errno; cbn [result trace];
    try (rewrite SignalBackend_deliver_trace, SignalBackend_deliver_result).
  - subst pid. rewrite Z.eqb_refl. auto.
  - apply Z.eqb_neq in Hpm. rewrite Hpm. auto.
  - apply Z.eqb_neq in Hpm. rewrite Hpm. auto.
  - rewrite resolves_not_found in Hres by assumption. discriminate.
Qed.

Lemma SignalBackend_unresolved (w : World) (pid signum errno : Z) :
  resolves w pid = false ->
  SignalBackend w pid signum errno
  = mkRun (Returned false) errno
          (resolution_queries w pid ++ [EvReport (not_server_process_warning pid)]).
Proof.
  unfold resolves, resolution_queries. intros Hres.
  destruct (Z.eqb_spec pid (w_PostmasterPid w)) as [Hpm|Hpm]; [discriminate|].
  destruct (w_BackendPidGetProc w pid) eqn:Hb; [discriminate|].
  destruct (w_AuxiliaryPidGetProc w pid) eqn:Ha; [discriminate|].
  now apply SignalBackend_not_found.
Qed.

Lemma kills_app (a b : list event) : kills (a ++ b) = (kills a ++ kills b)%list.
Proof. apply flat_map_app. Qed.

Lemma reports_app (a b : list event) : reports (a ++ b) = (reports a ++ reports b)%list.
Proof. apply flat_map_app. Qed.

Lemma kills_resolution_queries (w : World) (pid : Z) :
  kills (resolution_queries w pid) = [].
Proof.
  unfold resolution_queries.
  destruct (pid =? w_PostmasterPid w); [reflexivity|].
  destruct (w_BackendPidGetProc w pid); reflexivity.
Qed.

Lemma reports_resolution_queries (w : World) (pid : Z) :
  reports (resolution_queries w pid) = [].
Proof.
  unfold resolution_queries.
  destruct (pid =? w_PostmasterPid w); [reflexivity|].
  destruct (w_BackendPidGetProc w pid); reflexivity.
Qed.

Lemma kills_delivery_trace (w : World) (pid signum : Z) :
  kills (delivery_trace w pid signum) = [(kill_target w pid, signum)].
Proof.
  unfold delivery_trace.
  destruct (w_kill w (kill_target w pid) signum =? 0); reflexivity.
Qed.

Lemma reports_delivery_trace (w : World) (pid signum : Z) :
  reports (delivery_trace w pid signum)
  = if w_kill w (kill_target w pid) signum =? 0 then []
    else [could_not_send_warning w pid signum].
Proof.
  unfold delivery_trace.
  destruct (w_kill w (kill_target w pid) signum =? 0); reflexivity.
Qed.

Lemma registry_queries_delivery_trace (w : World) (pid signum : Z) :
  registry_queries (delivery_trace w pid signum) = [].
Proof.
  unfold delivery_trace.
  destruct (w_kill w (kill_target w pid) signum =? 0); reflexivity.
Qed.

(** The privilege gate of each entry point. *)

Lemma pg_cause_panic_unauthorized (w : World) (errno : Z) :
  w_superuser w = false ->
  pg_cause_panic w errno
  = let e := insufficient_privilege
               "must be a superuser to execute pg_cause_panic function"
               (Some testing_only_detail) in
    mkRun (Raised AbortStatement e) errno [EvReport e].
Proof.
  intros Hsu. unfold pg_cause_panic, superuser.
  rewrite bind_ret_l, Hsu. reflexivity.
Qed.

Lemma pg_cause_fatal_unauthorized (w : World) (errno : Z) :
  w_superuser w = false ->
  pg_cause_fatal w errno
  = let e := insufficient_privilege
               "must be a superuser to execute pg_cause_fatal function"
               (Some testing_only_detail) in
    mkRun (Raised AbortStatement e) errno [EvReport e].
Proof.
  intros Hsu. unfold pg_cause_fatal, superuser.
  rewrite bind_ret_l, Hsu. reflexivity.
Qed.

Lemma pg_signal_backend_with_pid_unauthorized (w : World) (pid signum errno : Z) :
  w_superuser w = false ->
  pg_signal_backend_with_pid w pid signum errno
  = let e := insufficient_privilege
               "must be a superuser to execute pg_signal_backend function"
               None in
    mkRun (Raised AbortStatement e) errno [EvReport e].
Proof.
  intros Hsu. unfold pg_signal_backend_with_pid, superuser.
  rewrite bind_ret_l, Hsu. reflexivity.
Qed.

Lemma pg_signal_backend_with_pid_authorized (w : World) (pid signum errno : Z) :
  w_superuser w = true ->
  pg_signal_backend_with_pid w pid signum errno = SignalBackend w pid signum errno.
Proof.
  intros Hsu. unfold pg_signal_backend_with_pid, superuser.
  rewrite bind_ret_l, Hsu. cbn [negb]. rewrite bind_ret_l. reflexivity.
Qed.

(** For every resolution but NotFound the specification's dispatcher is
    the delivery part of SignalBackend. *)
Lemma SignalDispatcher_resolved (w : World) (res : Spec.Resolution)
      (pid signum errno : Z) :
  res <> Spec.NotFound ->
  Spec.SignalDispatcher w res pid signum errno
  = SignalBackend_deliver w pid signum errno.
Proof.
  intros Hres.
  assert (E : Spec.SignalDispatcher w res pid signum errno
              = if w_kill w (kill_target w pid) signum =? 0
                then mkRun (Returned true) errno [EvKill (kill_target w pid) signum]
                else mkRun (Returned false)
                           (w_kill_errno w (kill_target w pid) signum)
                           [EvKill (kill_target w pid) signum;
                            EvReport (could_not_send_warning w pid signum)])
    by (destruct res; [reflexivity .. | contradiction]).
  rewrite E.
  destruct (Z.eq_dec (w_kill w (kill_target w pid) signum) 0) as [Hk|Hk].
  - rewrite (SignalBackend_deliver_ok _ _ _ _ Hk), Hk. reflexivity.
  - rewrite (SignalBackend_deliver_fail _ _ _ _ Hk).
    apply Z.eqb_neq in Hk. rewrite Hk. reflexivity.
Qed.

(** ** The claims *)

(** C1. For a pid that is not the postmaster's and that neither process
    table knows, SignalBackend returns false, issues exactly one report,
    a WARNING (below ERROR, so no hard error) whose text names the pid,
    and never calls kill.  For a superuser the SQL entry point
    pg_signal_backend_with_pid behaves as SignalBackend does. *)
Theorem SignalBackend_unknown_pid (w : World) (pid signum errno : Z) :
  pid <> w_PostmasterPid w ->
  w_BackendPidGetProc w pid = None ->
  w_AuxiliaryPidGetProc w pid = None ->
  result (SignalBackend w pid signum errno) = Returned false
  /\ reports (trace (SignalBackend w pid signum errno))
     = [mkErrorData WARNING None
          ("PID " ++ dec pid ++ " is not a PostgreSQL server process") None]
  /\ is_hard_error (not_server_process_warning pid) = false
  /\ kills (trace (SignalBackend w pid signum errno)) = []
  /\ (w_superuser w = true ->
      pg_signal_backend_with_pid w pid signum errno
      = SignalBackend w pid signum errno).
Proof.
  intros Hpm Hb Ha.
  pose proof (SignalBackend_not_found w pid signum errno Hpm Hb Ha) as E.
  split; [now rewrite E|].
  split; [now rewrite E|].
  split; [reflexivity|].
  split; [now rewrite E|].
  apply pg_signal_backend_with_pid_authorized.
Qed.

Lemma SignalBackend_unknown_pid_witness :
  result (SignalBackend (demo_world true true) 999999 15 0) = Returned false
  /\ reports (trace (SignalBackend (demo_world true true) 999999 15 0))
     = [mkErrorData WARNING None
          "PID 999999 is not a PostgreSQL server process" None].
Proof.
  pose proof (SignalBackend_unknown_pid (demo_world true true) 999999 15 0) as H.
  destruct H as (Hr & Hw & _); [discriminate | reflexivity | reflexivity |].
  split; [exact Hr | exact Hw].
Defined.

(** C2. The order of resolution.  SignalBackend is the specification's
    resolver followed by its dispatcher; and, case by case: for the
    postmaster's pid no registry is queried and the first call made is
    kill; otherwise the backend table is queried first and, when it knows
    the pid, kill follows without a query of the auxiliary table;
    otherwise the auxiliary table is queried next and, when it knows the
    pid, kill follows; otherwise both queries are followed by the warning
    and the result is false. *)
Theorem SignalBackend_resolution_order (w : World) (pid signum errno : Z) :
  SignalBackend w pid signum errno = Spec.SignalProcess w pid signum errno
  /\ (pid = w_PostmasterPid w ->
      trace (SignalBackend w pid signum errno) = delivery_trace w pid signum
      /\ registry_queries (trace (SignalBackend w pid signum errno)) = [])
  /\ (pid <> w_PostmasterPid w ->
      forall h, w_BackendPidGetProc w pid = Some h ->
      trace (SignalBackend w pid signum errno)
      = EvBackendPidGetProc pid :: delivery_trace w pid signum)
  /\ (pid <> w_PostmasterPid w ->
      w_BackendPidGetProc w pid = None ->
      forall h, w_AuxiliaryPidGetProc w pid = Some h ->
      trace (SignalBackend w pid signum errno)
      = EvBackendPidGetProc pid :: EvAuxiliaryPidGetProc pid
          :: delivery_trace w pid signum)
  /\ (pid <> w_PostmasterPid w ->
      w_BackendPidGetProc w pid = None ->
      w_AuxiliaryPidGetProc w pid = None ->
      trace (SignalBackend w pid signum errno)
      = [EvBackendPidGetProc pid; EvAuxiliaryPidGetProc pid;
         EvReport (not_server_process_warning pid)]
      /\ result (SignalBackend w pid signum errno) = Returned false).
Proof.
  split; [|repeat split].
  - unfold Spec.SignalProcess, Spec.ProcessResolver.
    resolution_cases w pid signum errno.
    + subst pid. rewrite Z.eqb_refl, bind_ret_l.
      now rewrite SignalDispatcher_resolved.
    + apply Z.eqb_neq in Hpm. rewrite Hpm.
      unfold bind, BackendPidGetProc, ret.
      cbn [result errno_after trace]. rewrite Hb.
      cbn [result errno_after trace app].
      now rewrite SignalDispatcher_resolved.
    + apply Z.eqb_neq in Hpm. rewrite Hpm.
      unfold bind, BackendPidGetProc, AuxiliaryPidGetProc, ret.
      cbn [result errno_after trace]. rewrite Hb.
      cbn [result errno_after trace]. rewrite Ha.
      cbn [result errno_after trace app].
      now rewrite SignalDispatcher_resolved.
    + apply Z.eqb_neq in Hpm. rewrite Hpm.
      unfold bind, BackendPidGetProc, AuxiliaryPidGetProc, ret.
      cbn [result errno_after trace]. rewrite Hb.
      cbn [result errno_after trace]. rewrite Ha.
      reflexivity.
  - rewrite (SignalBackend_postmaster w pid signum errno) by assumption.
    apply SignalBackend_deliver_trace.
  - rewrite (SignalBackend_postmaster w pid signum errno) by assumption.
    rewrite SignalBackend_deliver_trace. apply registry_queries_delivery_trace.
  - intros Hpm h Hb. rewrite (SignalBackend_backend _ _ _ _ h Hpm Hb).
    cbn [trace]. now rewrite SignalBackend_deliver_trace.
  - intros Hpm Hb h Ha. rewrite (SignalBackend_auxiliary _ _ _ _ h Hpm Hb Ha).
    cbn [trace]. now rewrite SignalBackend_deliver_trace.
  - now rewrite (SignalBackend_not_found w pid signum errno).
  - now rewrite (SignalBackend_not_found w pid signum errno).
Qed.

Lemma SignalBackend_resolution_order_witness :
  trace (SignalBackend (demo_world true true) 100 15 0)
  = [EvKill (-100) 15;
     EvReport (mkErrorData WARNING None
                 "could not send signal 15 to process 100: No such process" None)]
  /\ trace (SignalBackend (demo_world true true) 300 15 0)
     = [EvBackendPidGetProc 300; EvAuxiliaryPidGetProc 300; EvKill (-300) 15;
        EvReport (mkErrorData WARNING None
                    "could not send signal 15 to process 300: No such process" None)].
Proof.
  pose proof (SignalBackend_resolution_order (demo_world true true) 100 15 0)
    as (_ & Hsup & _).
  pose proof (SignalBackend_resolution_order (demo_world true true) 300 15 0)
    as (_ & _ & _ & Haux & _).
  split.
  - exact (proj1 (Hsup eq_refl)).
  - refine (Haux _ eq_refl (mkPGPROC 2) eq_refl). discriminate.
Defined.

(** C3. For a pid that passes validation the signal sender calls kill
    exactly once: on the negated pid (the process group) when the build
    has setsid, on the pid itself otherwise.  The negation is the exact
    negative of the pid for every [int] above INT_MIN, and for every pid
    above 1 the value passed is below -1, the form in which kill(2)
    addresses a process group.  This holds of SignalBackend and, for a
    superuser, of the SQL entry point pg_signal_backend_with_pid, whose
    run is then SignalBackend's. *)
Theorem SignalBackend_kill_target (w : World) (pid signum errno : Z) :
  resolves w pid = true ->
  (w_HAVE_SETSID w = true ->
   kills (trace (SignalBackend w pid signum errno)) = [(neg_int pid, signum)]
   /\ (INT_MIN < pid <= INT_MAX -> neg_int pid = - pid))
  /\ (w_HAVE_SETSID w = false ->
      kills (trace (SignalBackend w pid signum errno)) = [(pid, signum)])
  /\ (1 < pid <= INT_MAX -> neg_int pid = - pid /\ neg_int pid < -1)
  /\ (w_superuser w = true ->
      pg_signal_backend_with_pid w pid signum errno
      = SignalBackend w pid signum errno
      /\ kills (trace (pg_signal_backend_with_pid w pid signum errno))
         = [(if w_HAVE_SETSID w then neg_int pid else pid, signum)]).
Proof.
  intros Hres.
  destruct (SignalBackend_resolved w pid signum errno Hres) as [Ht _].
  assert (Hk : kills (trace (SignalBackend w pid signum errno))
               = [(if w_HAVE_SETSID w then neg_int pid else pid, signum)]).
  { rewrite Ht, kills_app, kills_resolution_queries, kills_delivery_trace.
    reflexivity. }
  split; [|split; [|split]].
  - intros Hs. rewrite Hk, Hs. split; [reflexivity | apply neg_int_exact].
  - intros Hs. rewrite Hk, Hs. reflexivity.
  - intros Hp.
    assert (E : neg_int pid = - pid)
      by (apply neg_int_exact; unfold INT_MIN, INT_MAX in *; lia).
    split; [exact E | rewrite E; lia].
  - intros Hsu.
    rewrite (pg_signal_backend_with_pid_authorized w pid signum errno Hsu).
    split; [reflexivity | exact Hk].
Qed.

Lemma SignalBackend_kill_target_witness :
  kills (trace (pg_signal_backend_with_pid (demo_world true true) 200 15 0))
  = [(-200, 15)]
  /\ kills (trace (pg_signal_backend_with_pid (demo_world true false) 200 15 0))
     = [(200, 15)]
  /\ kills (trace (SignalBackend (demo_world true true) 200 15 0)) = [(-200, 15)]
  /\ kills (trace (SignalBackend (demo_world true false) 200 15 0)) = [(200, 15)].
Proof.
  pose proof (SignalBackend_kill_target (demo_world true true) 200 15 0 eq_refl)
    as (Hs & _ & _ & He).
  pose proof (SignalBackend_kill_target (demo_world true false) 200 15 0 eq_refl)
    as (_ & Hn & _ & He').
  split; [exact (proj2 (He eq_refl))|].
  split; [exact (proj2 (He' eq_refl))|].
  split; [exact (proj1 (Hs eq_refl)) | exact (Hn eq_refl)].
Defined.

(** C4. For a pid that passes validation: when kill returns non-zero,
    the signal sender issues one WARNING whose text carries the signal
    number, the pid and the text of the errno kill left, and returns
    false; when kill returns zero it returns true and reports nothing.
    This holds of SignalBackend and, for a superuser, of the SQL entry
    point pg_signal_backend_with_pid, whose run is then SignalBackend's. *)
Theorem SignalBackend_delivery_outcome (w : World) (pid signum errno : Z) :
  resolves w pid = true ->
  (w_kill w (kill_target w pid) signum <> 0 ->
   result (SignalBackend w pid signum errno) = Returned false
   /\ reports (trace (SignalBackend w pid signum errno))
      = [mkErrorData WARNING None
           ("could not send signal " ++ dec signum ++ " to process " ++ dec pid
              ++ ": " ++ w_strerror w (w_kill_errno w (kill_target w pid) signum))
           None]
   /\ is_hard_error (could_not_send_warning w pid signum) = false)
  /\ (w_kill w (kill_target w pid) signum = 0 ->
      result (SignalBackend w pid signum errno) = Returned true
      /\ reports (trace (SignalBackend w pid signum errno)) = [])
  /\ (w_superuser w = true ->
      pg_signal_backend_with_pid w pid signum errno
      = SignalBackend w pid signum errno
      /\ (w_kill w (kill_target w pid) signum <> 0 ->
          result (pg_signal_backend_with_pid w pid signum errno) = Returned false
          /\ reports (trace (pg_signal_backend_with_pid w pid signum errno))
             = [mkErrorData WARNING None
                  ("could not send signal " ++ dec signum ++ " to process "
                     ++ dec pid ++ ": "
                     ++ w_strerror w (w_kill_errno w (kill_target w pid) signum))
                  None])
      /\ (w_kill w (kill_target w pid) signum = 0 ->
          result (pg_signal_backend_with_pid w pid signum errno) = Returned true
          /\ reports (trace (pg_signal_backend_with_pid w pid signum errno)) = [])).
Proof.
  intros Hres.
  destruct (SignalBackend_resolved w pid signum errno Hres) as [Ht Hr].
  assert (Hfail : w_kill w (kill_target w pid) signum <> 0 ->
                  result (SignalBackend w pid signum errno) = Returned false
                  /\ reports (trace (SignalBackend w pid signum errno))
                     = [could_not_send_warning w pid signum]).
  { intros Hk. apply Z.eqb_neq in Hk.
    rewrite Ht, Hr, reports_app, reports_resolution_queries, reports_delivery_trace.
    rewrite Hk. split; reflexivity. }
  assert (Hok : w_kill w (kill_target w pid) signum = 0 ->
                result (SignalBackend w pid signum errno) = Returned true
                /\ reports (trace (SignalBackend w pid signum errno)) = []).
  { intros Hk.
    rewrite Ht, Hr, reports_app, reports_resolution_queries, reports_delivery_trace.
    rewrite Hk. split; reflexivity. }
  split; [|split].
  - intros Hk. destruct (Hfail Hk) as [H1 H2]. repeat split; assumption.
  - exact Hok.
  - intros Hsu.
    rewrite (pg_signal_backend_with_pid_authorized w pid signum errno Hsu).
    split; [reflexivity|]. split; [exact Hfail | exact Hok].
Qed.

Lemma SignalBackend_delivery_outcome_witness :
  (result (pg_signal_backend_with_pid (demo_world true true) 300 15 0)
   = Returned false
   /\ reports (trace (pg_signal_backend_with_pid (demo_world true true) 300 15 0))
      = [mkErrorData WARNING None
           "could not send signal 15 to process 300: No such process" None])
  /\ result (pg_signal_backend_with_pid (demo_world true true) 200 15 0)
     = Returned true
  /\ result (SignalBackend (demo_world true true) 300 15 0) = Returned false
  /\ result (SignalBackend (demo_world true true) 200 15 0) = Returned true.
Proof.
  pose proof
    (SignalBackend_delivery_outcome (demo_world true true) 300 15 0 eq_refl)
    as (Hfail & _ & Hentry).
  pose proof
    (SignalBackend_delivery_outcome (demo_world true true) 200 15 0 eq_refl)
    as (_ & Hok & Hentry').
  destruct (Hentry eq_refl) as (_ & Hefail & _).
  destruct (Hentry' eq_refl) as (_ & _ & Heok).
  assert (Hne : w_kill (demo_world true true)
                       (kill_target (demo_world true true) 300) 15 <> 0)
    by discriminate.
  split; [exact (Hefail Hne)|].
  split; [exact (proj1 (Heok eq_refl))|].
  split; [exact (proj1 (Hfail Hne)) | exact (proj1 (Hok eq_refl))].
Defined.

(** C5. For a caller that is not a superuser, pg_cause_panic,
    pg_cause_fatal and pg_signal_backend_with_pid each raise one ERROR
    with ERRCODE_INSUFFICIENT_PRIVILEGE that aborts the statement, and
    that report is the only call they make: no registry is queried, no
    signal is sent and no PANIC or FATAL is raised. *)
Theorem privilege_gate_rejects (w : World) (pid signum errno : Z) :
  w_superuser w = false ->
  (exists e,
     pg_cause_panic w errno = mkRun (Raised AbortStatement e) errno [EvReport e]
     /\ ed_elevel e = ERROR
     /\ ed_sqlerrcode e = Some ERRCODE_INSUFFICIENT_PRIVILEGE)
  /\ (exists e,
        pg_cause_fatal w errno = mkRun (Raised AbortStatement e) errno [EvReport e]
        /\ ed_elevel e = ERROR
        /\ ed_sqlerrcode e = Some ERRCODE_INSUFFICIENT_PRIVILEGE)
  /\ (exists e,
        pg_signal_backend_with_pid w pid signum errno
        = mkRun (Raised AbortStatement e) errno [EvReport e]
        /\ ed_elevel e = ERROR
        /\ ed_sqlerrcode e = Some ERRCODE_INSUFFICIENT_PRIVILEGE).
Proof.
  intros Hsu. repeat split.
  - eexists. rewrite (pg_cause_panic_unauthorized w errno Hsu). repeat split.
  - eexists. rewrite (pg_cause_fatal_unauthorized w errno Hsu). repeat split.
  - eexists. rewrite (pg_signal_backend_with_pid_unauthorized w pid signum errno Hsu).
    repeat split.
Qed.

Lemma privilege_gate_rejects_witness :
  exists e,
    pg_signal_backend_with_pid (demo_world false true) 1 15 0
    = mkRun (Raised AbortStatement e) 0 [EvReport e]
    /\ ed_elevel e = ERROR
    /\ ed_sqlerrcode e = Some ERRCODE_INSUFFICIENT_PRIVILEGE.
Proof.
  exact (proj2 (proj2 (privilege_gate_rejects (demo_world false true) 1 15 0 eq_refl))).
Defined.

(** C6. The InsufficientPrivilege error of pg_cause_panic and of
    pg_cause_fatal carries the detail that the function is for testing or
    development only; the error of pg_signal_backend_with_pid carries no
    detail at all, and its message does not say so either. *)
Theorem signal_privilege_error_lacks_note (w : World) (pid signum errno : Z) :
  w_superuser w = false ->
  (exists e,
     result (pg_cause_panic w errno) = Raised AbortStatement e
     /\ ed_detail e = Some testing_only_detail)
  /\ (exists e,
        result (pg_cause_fatal w errno) = Raised AbortStatement e
        /\ ed_detail e = Some testing_only_detail)
  /\ (exists e,
        result (pg_signal_backend_with_pid w pid signum errno)
        = Raised AbortStatement e
        /\ ed_detail e = None
        /\ ed_message e
           = "must be a superuser to execute pg_signal_backend function").
Proof.
  intros Hsu. repeat split.
  - eexists. rewrite (pg_cause_panic_unauthorized w errno Hsu). repeat split.
  - eexists. rewrite (pg_cause_fatal_unauthorized w errno Hsu). repeat split.
  - eexists. rewrite (pg_signal_backend_with_pid_unauthorized w pid signum errno Hsu).
    repeat split.
Qed.

Lemma signal_privilege_error_lacks_note_witness :
  exists e,
    result (pg_signal_backend_with_pid (demo_world false true) 1 15 0)
    = Raised AbortStatement e
    /\ ed_detail e = None
    /\ ed_message e = "must be a superuser to execute pg_signal_backend function".
Proof.
  exact (proj2 (proj2 (signal_privilege_error_lacks_note
                         (demo_world false true) 1 15 0 eq_refl))).
Defined.

(** C7. Each timeline reader returns SQL NULL when the stored timeline is
    zero and the stored timeline itself, not null, for every unsigned
    32-bit value from 1 up; none of them ever returns a non-null zero. *)
Theorem timeline_readers_translate_zero (w : World) :
  uint32_range (w_GetFlushRecPtr_tli w) ->
  uint32_range (w_GetXLogReplayRecPtr_tli w) ->
  uint32_range (w_GetWalRcvFlushRecPtr_tli w) ->
  translates_zero_sentinel (w_GetFlushRecPtr_tli w) (pg_current_wal_tli w)
  /\ translates_zero_sentinel (w_GetXLogReplayRecPtr_tli w) (pg_last_wal_replay_tli w)
  /\ translates_zero_sentinel (w_GetWalRcvFlushRecPtr_tli w) (pg_last_wal_receive_tli w).
Proof.
  unfold uint32_range, translates_zero_sentinel, UINT32_MAX.
  unfold pg_current_wal_tli, pg_last_wal_replay_tli, pg_last_wal_receive_tli.
  intros H1 H2 H3.
  repeat split; intros;
    repeat match goal with
           | |- context [?x =? 0] => destruct (Z.eqb_spec x 0)
           | H : _ /\ _ |- _ => destruct H
           end; cbn in *; try reflexivity; try discriminate; try lia.
Qed.

Lemma timeline_readers_translate_zero_witness :
  translates_zero_sentinel 0 (pg_current_wal_tli (demo_world true true))
  /\ translates_zero_sentinel 1 (pg_last_wal_replay_tli (demo_world true true))
  /\ translates_zero_sentinel 4294967295
       (pg_last_wal_receive_tli (demo_world true true)).
Proof.
  apply (timeline_readers_translate_zero (demo_world true true));
    unfold uint32_range, UINT32_MAX; cbn; split; discriminate.
Defined.

(** C8. For a superuser pg_cause_panic raises a PANIC, the level above
    every other, which takes the whole cluster down, and pg_cause_fatal
    raises a FATAL, which ends the calling session only; neither returns
    to its caller. *)
Theorem crash_injectors_diverge (w : World) (errno : Z) :
  w_superuser w = true ->
  (let e := mkErrorData PANIC (Some ERRCODE_INTERNAL_ERROR)
              "PANIC generated by pg_cause_panic function" None in
   pg_cause_panic w errno = mkRun (Raised ClusterPanic e) errno [EvReport e])
  /\ (forall l, elevel_value l <= elevel_value PANIC)
  /\ (let e := mkErrorData FATAL (Some ERRCODE_INTERNAL_ERROR)
                 "FATAL error generated by pg_cause_fatal function" None in
      pg_cause_fatal w errno = mkRun (Raised SessionExit e) errno [EvReport e])
  /\ (forall u, result (pg_cause_panic w errno) <> Returned u)
  /\ (forall u, result (pg_cause_fatal w errno) <> Returned u).
Proof.
  intros Hsu.
  assert (Hp : pg_cause_panic w errno
               = let e := mkErrorData PANIC (Some ERRCODE_INTERNAL_ERROR)
                            "PANIC generated by pg_cause_panic function" None in
                 mkRun (Raised ClusterPanic e) errno [EvReport e]).
  { unfold pg_cause_panic, superuser. rewrite bind_ret_l, Hsu.
    cbn [negb]. rewrite bind_ret_l. reflexivity. }
  assert (Hf : pg_cause_fatal w errno
               = let e := mkErrorData FATAL (Some ERRCODE_INTERNAL_ERROR)
                            "FATAL error generated by pg_cause_fatal function" None in
                 mkRun (Raised SessionExit e) errno [EvReport e]).
  { unfold pg_cause_fatal, superuser. rewrite bind_ret_l, Hsu.
    cbn [negb]. rewrite bind_ret_l. reflexivity. }
  split; [exact Hp|].
  split; [intros l; destruct l; cbn; lia|].
  split; [exact Hf|].
  split; intros u; [rewrite Hp | rewrite Hf]; discriminate.
Qed.

Lemma crash_injectors_diverge_witness :
  result (pg_cause_panic (demo_world true true) 0)
  = Raised ClusterPanic
      (mkErrorData PANIC (Some ERRCODE_INTERNAL_ERROR)
         "PANIC generated by pg_cause_panic function" None)
  /\ result (pg_cause_fatal (demo_world true true) 0)
     = Raised SessionExit
         (mkErrorData FATAL (Some ERRCODE_INTERNAL_ERROR)
            "FATAL error generated by pg_cause_fatal function" None).
Proof.
  pose proof (crash_injectors_diverge (demo_world true true) 0 eq_refl)
    as (Hp & _ & Hf & _).
  split; [exact (f_equal result Hp) | exact (f_equal result Hf)].
Defined.

(** C9. SignalBackend checks neither argument: for every [int] pid, zero
    and negative ones included, and every [int] signal number it returns
    normally, and the value returned is true exactly when the pid is the
    postmaster's or known to one of the two process tables and kill
    returned zero.  For a superuser the SQL entry point returns the same
    value. *)
Theorem SignalBackend_no_argument_check (w : World) (pid signum errno : Z) :
  int_range pid ->
  int_range signum ->
  result (SignalBackend w pid signum errno)
  = Returned (resolves w pid && (w_kill w (kill_target w pid) signum =? 0))
  /\ (w_superuser w = true ->
      result (pg_signal_backend_with_pid w pid signum errno)
      = Returned (resolves w pid && (w_kill w (kill_target w pid) signum =? 0))).
Proof.
  intros _ _.
  assert (H : result (SignalBackend w pid signum errno)
              = Returned (resolves w pid
                          && (w_kill w (kill_target w pid) signum =? 0))).
  { destruct (resolves w pid) eqn:Hres.
    - now destruct (SignalBackend_resolved w pid signum errno Hres) as [_ ->].
    - now rewrite (SignalBackend_unresolved w pid signum errno Hres). }
  split; [exact H|].
  intros Hsu. now rewrite pg_signal_backend_with_pid_authorized.
Qed.

Lemma SignalBackend_no_argument_check_witness :
  result (SignalBackend (demo_world true true) (-7) 0 0) = Returned true
  /\ result (SignalBackend (demo_world true true) 0 (-2147483648) 0)
     = Returned false.
Proof.
  split.
  - refine (proj1 (SignalBackend_no_argument_check
                     (demo_world true true) (-7) 0 0 _ _));
      unfold int_range, INT_MIN, INT_MAX; split; discriminate.
  - refine (proj1 (SignalBackend_no_argument_check
                     (demo_world true true) 0 (-2147483648) 0 _ _));
      unfold int_range, INT_MIN, INT_MAX; split; discriminate.
Defined.

(** C10. Every call of SignalBackend returns a boolean; it issues exactly
    one report when that boolean is false and none when it is true, and
    every report it issues is a WARNING. *)
Theorem SignalBackend_warns_iff_false (w : World) (pid signum errno : Z) :
  exists b,
    result (SignalBackend w pid signum errno) = Returned b
    /\ List.length (reports (trace (SignalBackend w pid signum errno)))
       = (if b then 0%nat else 1%nat)
    /\ Forall (fun e => ed_elevel e = WARNING)
              (reports (trace (SignalBackend w pid signum errno))).
Proof.
  destruct (resolves w pid) eqn:Hres.
  - destruct (SignalBackend_resolved w pid signum errno Hres) as [Ht Hr].
    exists (w_kill w (kill_target w pid) signum =? 0).
    rewrite Ht, Hr, reports_app, reports_resolution_queries, reports_delivery_trace.
    destruct (w_kill w (kill_target w pid) signum =? 0); cbn; repeat split; auto.
  - exists false.
    rewrite (SignalBackend_unresolved w pid signum errno Hres).
    cbn [result trace].
    rewrite reports_app, reports_resolution_queries.
    cbn; repeat split; auto.
Qed.

(** ** Further properties of the module *)

(** The whole trace of SignalBackend, and its result, in closed form. *)
Lemma SignalBackend_trace (w : World) (pid signum errno : Z) :
  trace (SignalBackend w pid signum errno)
  = (resolution_queries w pid
       ++ (if resolves w pid then delivery_trace w pid signum
           else [EvReport (not_server_process_warning pid)]))%list.
Proof.
  destruct (resolves w pid) eqn:Hres.
  - apply (SignalBackend_resolved w pid signum errno Hres).
  - now rewrite (SignalBackend_unresolved w pid signum errno Hres).
Qed.

Lemma SignalBackend_result (w : World) (pid signum errno : Z) :
  result (SignalBackend w pid signum errno)
  = Returned (resolves w pid && (w_kill w (kill_target w pid) signum =? 0)).
Proof.
  destruct (resolves w pid) eqn:Hres.
  - apply (SignalBackend_resolved w pid signum errno Hres).
  - now rewrite (SignalBackend_unresolved w pid signum errno Hres).
Qed.

Lemma registry_queries_app (a b : list event) :
  registry_queries (a ++ b) = (registry_queries a ++ registry_queries b)%list.
Proof. apply filter_app. Qed.

Lemma registry_queries_resolution_queries (w : World) (pid : Z) :
  registry_queries (resolution_queries w pid) = resolution_queries w pid.
Proof.
  unfold resolution_queries.
  destruct (pid =? w_PostmasterPid w); [reflexivity|].
  destruct (w_BackendPidGetProc w pid); reflexivity.
Qed.

Lemma resolution_queries_length (w : World) (pid : Z) :
  (List.length (resolution_queries w pid) <= 2)%nat.
Proof.
  unfold resolution_queries.
  destruct (pid =? w_PostmasterPid w); [cbn; lia|].
  destruct (w_BackendPidGetProc w pid); cbn; lia.
Qed.

Lemma delivery_trace_length (w : World) (pid signum : Z) :
  (List.length (delivery_trace w pid signum) <= 2)%nat.
Proof.
  unfold delivery_trace.
  destruct (w_kill w (kill_target w pid) signum =? 0); cbn; lia.
Qed.

(** The reports of one call of SignalBackend. *)
Lemma SignalBackend_reports (w : World) (pid signum errno : Z) :
  reports (trace (SignalBackend w pid signum errno))
  = if resolves w pid
    then if w_kill w (kill_target w pid) signum =? 0 then []
         else [could_not_send_warning w pid signum]
    else [not_server_process_warning pid].
Proof.
  rewrite SignalBackend_trace, reports_app, reports_resolution_queries.
  destruct (resolves w pid); [apply reports_delivery_trace | reflexivity].
Qed.

(** X3. What a caller who is not a superuser gets from
    pg_signal_backend_with_pid is the same for every pid, every signal,
    every content of the process tables and every errno: the refusal does
    not tell whether a pid belongs to a server process. *)
Theorem unauthorized_signal_reveals_nothing
        (w1 w2 : World) (pid1 pid2 signum1 signum2 errno1 errno2 : Z) :
  w_superuser w1 = false ->
  w_superuser w2 = false ->
  result (pg_signal_backend_with_pid w1 pid1 signum1 errno1)
  = result (pg_signal_backend_with_pid w2 pid2 signum2 errno2)
  /\ trace (pg_signal_backend_with_pid w1 pid1 signum1 errno1)
     = trace (pg_signal_backend_with_pid w2 pid2 signum2 errno2).
Proof.
  intros H1 H2.
  rewrite (pg_signal_backend_with_pid_unauthorized w1 pid1 signum1 errno1 H1).
  rewrite (pg_signal_backend_with_pid_unauthorized w2 pid2 signum2 errno2 H2).
  split; reflexivity.
Qed.

Lemma unauthorized_signal_reveals_nothing_witness :
  result (pg_signal_backend_with_pid (demo_world false true) 200 15 0)
  = result (pg_signal_backend_with_pid (demo_world false false) 999999 9 3)
  /\ trace (pg_signal_backend_with_pid (demo_world false true) 200 15 0)
     = trace (pg_signal_backend_with_pid (demo_world false false) 999999 9 3).
Proof.
  apply (unauthorized_signal_reveals_nothing
           (demo_world false true) (demo_world false false) 200 999999 15 9 0 3);
    reflexivity.
Defined.

(** X4. The calls one run of SignalBackend makes: first its registry
    queries (none for the postmaster's pid, the backend table, then the
    auxiliary table only if the backend table does not know the pid), then
    either the kill with its possible warning or the not-a-server-process
    warning.  So there are at most two queries and four calls in all, and
    kill is called, once, exactly when the pid passes validation. *)
Theorem SignalBackend_external_calls (w : World) (pid signum errno : Z) :
  trace (SignalBackend w pid signum errno)
  = (resolution_queries w pid
       ++ (if resolves w pid then delivery_trace w pid signum
           else [EvReport (not_server_process_warning pid)]))%list
  /\ registry_queries (trace (SignalBackend w pid signum errno))
     = resolution_queries w pid
  /\ (List.length (registry_queries (trace (SignalBackend w pid signum errno))) <= 2)%nat
  /\ kills (trace (SignalBackend w pid signum errno))
     = (if resolves w pid then [(kill_target w pid, signum)] else [])
  /\ (List.length (trace (SignalBackend w pid signum errno)) <= 4)%nat.
Proof.
  pose proof (resolution_queries_length w pid) as Hq.
  pose proof (delivery_trace_length w pid signum) as Hd.
  rewrite SignalBackend_trace.
  assert (Hrq : registry_queries
                  (resolution_queries w pid
                     ++ (if resolves w pid then delivery_trace w pid signum
                         else [EvReport (not_server_process_warning pid)]))
                = resolution_queries w pid).
  { rewrite registry_queries_app, registry_queries_resolution_queries.
    destruct (resolves w pid);
      [rewrite registry_queries_delivery_trace | cbn]; apply app_nil_r. }
  rewrite Hrq, kills_app, kills_resolution_queries, length_app.
  split; [reflexivity|]. split; [reflexivity|]. split; [exact Hq|].
  destruct (resolves w pid).
  - rewrite kills_delivery_trace. split; [reflexivity | lia].
  - split; [reflexivity | cbn; lia].
Qed.

(** X5. Neither the result nor the calls of SignalBackend depend on the
    errno it is entered with: the text %m puts in the delivery warning is
    that of the kill that has just failed. *)
Theorem SignalBackend_ignores_stale_errno (w : World) (pid signum errno1 errno2 : Z) :
  result (SignalBackend w pid signum errno1) = result (SignalBackend w pid signum errno2)
  /\ trace (SignalBackend w pid signum errno1) = trace (SignalBackend w pid signum errno2).
Proof.
  split.
  - now rewrite !SignalBackend_result.
  - now rewrite !SignalBackend_trace.
Qed.

(** X6. A false result of SignalBackend has exactly two causes, and the
    single warning tells which: either the pid failed validation, no kill
    was attempted and the warning is the not-a-server-process one, or the
    pid passed, kill was called once and returned non-zero, and the
    warning is the could-not-send one.  The two texts are never equal. *)
Theorem SignalBackend_false_has_two_causes (w : World) (pid signum errno : Z) :
  result (SignalBackend w pid signum errno) = Returned false ->
  ((resolves w pid = false
    /\ kills (trace (SignalBackend w pid signum errno)) = []
    /\ reports (trace (SignalBackend w pid signum errno))
       = [not_server_process_warning pid])
   \/ (resolves w pid = true
       /\ w_kill w (kill_target w pid) signum <> 0
       /\ kills (trace (SignalBackend w pid signum errno))
          = [(kill_target w pid, signum)]
       /\ reports (trace (SignalBackend w pid signum errno))
          = [could_not_send_warning w pid signum]))
  /\ ed_message (not_server_process_warning pid)
     <> ed_message (could_not_send_warning w pid signum).
Proof.
  rewrite SignalBackend_result, SignalBackend_reports, SignalBackend_trace.
  rewrite kills_app, kills_resolution_queries.
  intros Hr. split; [|cbn; discriminate].
  destruct (resolves w pid).
  - right. cbn [andb] in Hr.
    destruct (Z.eqb_spec (w_kill w (kill_target w pid) signum) 0) as [Hk|Hk];
      [discriminate|].
    rewrite kills_delivery_trace. repeat split. exact Hk.
  - left. repeat split.
Qed.

Lemma SignalBackend_false_has_two_causes_witness :
  reports (trace (SignalBackend (demo_world true true) 300 15 0))
  = [could_not_send_warning (demo_world true true) 300 15]
  /\ reports (trace (SignalBackend (demo_world true true) 999999 15 0))
     = [not_server_process_warning 999999].
Proof.
  pose proof (SignalBackend_false_has_two_causes (demo_world true true) 300 15 0
                eq_refl) as [[(Hres & _) | (_ & _ & _ & Hrep)] _];
    [discriminate Hres|].
  pose proof (SignalBackend_false_has_two_causes (demo_world true true) 999999 15 0
                eq_refl) as [[(_ & _ & Hrep') | (Hres' & _)] _];
    [|discriminate Hres'].
  split; [exact Hrep | exact Hrep'].
Defined.

(** X9. The result of a timeline reader identifies the timeline it read:
    two servers give the same result exactly when the stored timelines
    are equal, so the translation of zero to NULL loses nothing and
    nothing else about the server (the caller's privilege included) shows
    in the result. *)
Theorem timeline_result_identifies_timeline (w1 w2 : World) :
  (pg_current_wal_tli w1 = pg_current_wal_tli w2
   <-> w_GetFlushRecPtr_tli w1 = w_GetFlushRecPtr_tli w2)
  /\ (pg_last_wal_replay_tli w1 = pg_last_wal_replay_tli w2
      <-> w_GetXLogReplayRecPtr_tli w1 = w_GetXLogReplayRecPtr_tli w2)
  /\ (pg_last_wal_receive_tli w1 = pg_last_wal_receive_tli w2
      <-> w_GetWalRcvFlushRecPtr_tli w1 = w_GetWalRcvFlushRecPtr_tli w2).
Proof.
  unfold pg_current_wal_tli, pg_last_wal_replay_tli, pg_last_wal_receive_tli,
    PG_RETURN_NULL, PG_RETURN_UINT32.
  repeat split; intros H;
    repeat match goal with
           | H : context [?x =? 0] |- _ => destruct (Z.eqb_spec x 0)
           | |- context [?x =? 0] => destruct (Z.eqb_spec x 0)
           end;
    try congruence; try discriminate; try (injection H; congruence).
Qed.
